(** * Dream Purple theme: the accessibility contrast engine

    A shallow embedding of the numeric core of the repository's
    accessibility validator (the [AccessibilityValidator] class) and of the
    contrast helpers of its test suite: hex colour parsing, WCAG relative
    luminance, contrast ratio, classification against the WCAG thresholds
    and the colour-blindness separation estimate.

    JavaScript strings are modelled as [string] (code units below 256),
    JavaScript Numbers through the interface [Number], which is given two
    implementations further down:
    - [binary64]: IEEE 754 double precision ([PrimFloat]), the arithmetic
      the program runs on, with [Math.pow] (whose result the language
      leaves implementation-approximated) as a parameter;
    - [ideal]: exact real arithmetic extended with NaN, the values the
      double-precision operations approximate.
    Every function of the program is written once, over the interface.

    Properties of parsing, of the order of the arguments and of the
    comparisons with the thresholds are proved for both implementations
    (or for every implementation); bounds on luminances and ratios over all
    colours are proved in exact arithmetic, where rounding does not enter,
    and the values the specification names (white, black, black against
    white, 4.5 and 4.49999, the sample colour pair) are also evaluated in
    double precision. *)

From Stdlib Require Import ZArith QArith Qreals Reals Lra Lia Psatz.
From Stdlib Require Import String Ascii List Bool.
From Stdlib Require Import Floats.
From stdpp Require Import gmap strings.

Local Open Scope string_scope.
Local Open Scope Z_scope.

(** ** JavaScript string and integer primitives used by the program *)

Module JS.

(** [WhiteSpace] and [LineTerminator] code units below 256: TAB, LF, VT, FF,
    CR, SP and NBSP. *)
Definition isWhiteSpace (c : ascii) : bool :=
  let n := Z.of_nat (nat_of_ascii c) in
  ((9 <=? n) && (n <=? 13)) || (n =? 32) || (n =? 160).

(** [TrimString(s, start)]. *)
Fixpoint trimStart (s : string) : string :=
  match s with
  | String c s' => if isWhiteSpace c then trimStart s' else s
  | EmptyString => s
  end.

(** Value of a digit in radix 16: [0-9], [a-f], [A-F]. *)
Definition hexValue (c : ascii) : option Z :=
  let n := Z.of_nat (nat_of_ascii c) in
  if (48 <=? n) && (n <=? 57) then Some (n - 48)
  else if (97 <=? n) && (n <=? 102) then Some (n - 87)
  else if (65 <=? n) && (n <=? 70) then Some (n - 55)
  else None.

Definition isHexDigit (c : ascii) : bool :=
  match hexValue c with Some _ => true | None => false end.

(** The longest prefix of radix-16 digits, read as an integer; [acc] is
    [None] as long as no digit has been read. *)
Fixpoint hexPrefix (s : string) (acc : option Z) : option Z :=
  match s with
  | String c s' =>
      match hexValue c with
      | Some d => hexPrefix s' (Some (16 * default 0 acc + d))
      | None => acc
      end
  | EmptyString => acc
  end.

(** Removal of the [0x] / [0X] prefix, which [parseInt] performs when the
    radix is 16. *)
Definition strip0x (s : string) : string :=
  match s with
  | String "0" (String "x" s') => s'
  | String "0" (String "X" s') => s'
  | _ => s
  end.

(** The result of [parseInt]: NaN, or a sign and a magnitude (the sign is
    kept apart because [parseInt("-0", 16)] is the Number -0). *)
Inductive parsed : Type :=
  | PNaN
  | PInt (negative : bool) (magnitude : Z).

(** [parseInt(s, 16)]: leading white space is skipped, then an optional
    sign, then an optional [0x], then the longest run of hex digits; what
    follows the digits is ignored, and no digit at all gives NaN. *)
Definition parseInt16 (s : string) : parsed :=
  let trimmed := trimStart s in
  let '(negative, body) :=
    match trimmed with
    | String "-" rest => (true, rest)
    | String "+" rest => (false, rest)
    | _ => (false, trimmed)
    end in
  match hexPrefix (strip0x body) None with
  | Some n => PInt negative n
  | None => PNaN
  end.

(** [hex.replace(/^#/, '')]: one leading [#] is removed. *)
Definition stripHash (s : string) : string :=
  match s with
  | String "#" s' => s'
  | _ => s
  end.

(** [s.substr(start, len)]. *)
Definition substr (s : string) (start len : nat) : string :=
  String.substring start len s.

(** [s[i] + s[i]]; reading past the end gives [undefined], which the
    concatenation turns into text. *)
Definition twice (s : string) (i : nat) : string :=
  match String.get i s with
  | Some c => String c (String c EmptyString)
  | None => "undefinedundefined"
  end.

Definition hexDigit (d : Z) : ascii :=
  ascii_of_nat (Z.to_nat (if d <? 10 then 48 + d else 87 + d)).

(** Digits of a non-negative integer in radix 16, most significant first;
    [fuel] bounds the number of digits. *)
Fixpoint toHex (fuel : nat) (n : Z) (acc : string) : string :=
  match fuel with
  | O => acc
  | S fuel' =>
      let acc' := String (hexDigit (n mod 16)) acc in
      if n / 16 =? 0 then acc' else toHex fuel' (n / 16) acc'
  end.

(** [n.toString(16)] for an integer-valued Number ([Some z]) or NaN
    ([None]). *)
Definition toString16 (n : option Z) : string :=
  match n with
  | None => "NaN"
  | Some z =>
      if z <? 0
      then String "-" (toHex (S (Z.to_nat (Z.log2 (- z)))) (- z) EmptyString)
      else toHex (S (Z.to_nat (Z.log2 z))) z EmptyString
  end.

Fixpoint repeat0 (n : nat) (s : string) : string :=
  match n with
  | O => s
  | S n' => String "0" (repeat0 n' s)
  end.

(** [s.padStart(len, '0')]. *)
Definition padStart0 (s : string) (len : nat) : string :=
  repeat0 (len - String.length s)%nat s.

End JS.

(** ** The Number interface

    The operations on Numbers that the program uses.  [Math_round]
    composes [Math.round] with the reading of its result as an integer:
    [Some z] for the integer [z] ([-0] is read as [0]) and [None] for NaN. *)

Class Number (num : Type) : Type := {
  num_of_Z : Z -> num;
  num_nan : num;
  num_neg : num -> num;
  num_add : num -> num -> num;
  num_sub : num -> num -> num;
  num_mul : num -> num -> num;
  num_div : num -> num -> num;
  num_lt : num -> num -> bool;
  num_le : num -> num -> bool;
  Math_max : num -> num -> num;
  Math_min : num -> num -> num;
  Math_pow : num -> num -> num;
  Math_sqrt : num -> num;
  Math_round : num -> option Z
}.

Declare Scope num_scope.
Delimit Scope num_scope with num.
Infix "+" := num_add : num_scope.
Infix "-" := num_sub : num_scope.
Infix "*" := num_mul : num_scope.
Infix "/" := num_div : num_scope.
Infix "<?" := num_lt : num_scope.
Infix "<=?" := num_le : num_scope.

(** A decimal literal of the source: the quotient of two integers, which
    in double precision is the double nearest to the decimal, since the
    division is correctly rounded and both integers are exact. *)
Definition lit {num} {N : Number num} (q : Q) : num :=
  (num_of_Z (Qnum q) / num_of_Z (Zpos (Qden q)))%num.
Arguments lit {num _} q%_Q.

(** An integer literal of the source. *)
Definition int {num} {N : Number num} (z : Z) : num := num_of_Z z.
Arguments int {num _} z%_Z.

(** The Number that [parseInt] returns. *)
Definition parseInt {num} {N : Number num} (s : string) : num :=
  match JS.parseInt16 s with
  | JS.PNaN => num_nan
  | JS.PInt negative n =>
      if negative then num_neg (num_of_Z n) else num_of_Z n
  end.

(** [ToNumber] on a value that is a Number or [undefined]. *)
Definition ToNumber {num} {N : Number num} (v : option num) : num :=
  match v with
  | Some x => x
  | None => num_nan
  end.

(** Truthiness of a value that is a string or [undefined]. *)
Definition truthy (v : option string) : bool :=
  match v with
  | Some EmptyString => false
  | Some _ => true
  | None => false
  end.

(** ** The accessibility validator *)

Module Validator.

Section Engine.
Context {num : Type} {N : Number num}.
Local Open Scope num_scope.

(** *** Tables *)

Record standards : Type := {
  AA : gmap string num;
  AAA : gmap string num
}.

(** [WCAG_STANDARDS]. *)
Definition WCAG_STANDARDS : standards := {|
  AA := list_to_map
    [ ("normalText", lit 4.5); ("largeText", lit 3.0);
      ("uiComponents", lit 3.0); ("graphicalObjects", lit 3.0) ];
  AAA := list_to_map
    [ ("normalText", lit 7.0); ("largeText", lit 4.5);
      ("uiComponents", lit 4.5); ("graphicalObjects", lit 4.5) ]
|}.

(** A 3x3 matrix, as its three rows. *)
Definition row : Type := (num * num * num)%type.
Definition matrix : Type := (row * row * row)%type.

(** [COLOR_BLINDNESS_MATRICES], in the order of the object's keys. *)
Definition COLOR_BLINDNESS_MATRICES : list (string * matrix) :=
  [ ("protanopia",
      ((lit 0.567, lit 0.433, lit 0.000),
       (lit 0.558, lit 0.442, lit 0.000),
       (lit 0.000, lit 0.242, lit 0.758)));
    ("deuteranopia",
      ((lit 0.625, lit 0.375, lit 0.000),
       (lit 0.700, lit 0.300, lit 0.000),
       (lit 0.000, lit 0.300, lit 0.700)));
    ("tritanopia",
      ((lit 0.950, lit 0.050, lit 0.000),
       (lit 0.000, lit 0.433, lit 0.567),
       (lit 0.000, lit 0.475, lit 0.525))) ].

(** [COLOR_BLINDNESS_MATRICES[type]]: [None] is [undefined]. *)
Fixpoint lookupMatrix (table : list (string * matrix)) (type : string)
  : option matrix :=
  match table with
  | [] => None
  | (k, m) :: rest => if String.eqb k type then Some m else lookupMatrix rest type
  end.

(** The fallback colours of [loadThemeColors], used when the theme file
    cannot be read. *)
Definition defaultThemeColors : gmap string string :=
  list_to_map
    [ ("editor.background", "#1a0d26");
      ("editor.foreground", "#f4f1f4");
      ("editor.selectionBackground", "#4a2c5a");
      ("editor.lineHighlightBackground", "#2d1b3d");
      ("editorCursor.foreground", "#ff6b35");
      ("activityBar.background", "#1a0d26");
      ("activityBar.foreground", "#8b7a9b");
      ("activityBar.activeForeground", "#ff6b35");
      ("sideBar.background", "#2d1b3d");
      ("sideBar.foreground", "#f4f1f4");
      ("statusBar.background", "#1a0d26");
      ("statusBar.foreground", "#f4f1f4");
      ("tab.activeBackground", "#2d1b3d");
      ("tab.activeForeground", "#f4f1f4");
      ("tab.inactiveBackground", "#1a0d26");
      ("tab.inactiveForeground", "#8b7a9b");
      ("terminal.background", "#1a0d26");
      ("terminal.foreground", "#f4f1f4") ].

(** *** Colours *)

Record rgb : Type := { r : num; g : num; b : num; a : num }.

(** [hexToRgb]: only the length is checked; the digits go to [parseInt]
    unchecked.  [None] is [null]. *)
Definition hexToRgb (hex : string) : option rgb :=
  let hex := JS.stripHash hex in
  if (String.length hex =? 8)%nat then
    Some {| r := parseInt (JS.substr hex 0 2);
            g := parseInt (JS.substr hex 2 2);
            b := parseInt (JS.substr hex 4 2);
            a := parseInt (JS.substr hex 6 2) / int 255 |}
  else if (String.length hex =? 6)%nat then
    Some {| r := parseInt (JS.substr hex 0 2);
            g := parseInt (JS.substr hex 2 2);
            b := parseInt (JS.substr hex 4 2);
            a := int 1 |}
  else if (String.length hex =? 3)%nat then
    Some {| r := parseInt (JS.twice hex 0);
            g := parseInt (JS.twice hex 1);
            b := parseInt (JS.twice hex 2);
            a := int 1 |}
  else None.

(** The function mapped over the channels in [getRelativeLuminance]. *)
Definition linearize (c : num) : num :=
  let c := c / int 255 in
  if c <=? lit 0.03928 then c / lit 12.92
  else Math_pow ((c + lit 0.055) / lit 1.055) (lit 2.4).

(** [getRelativeLuminance]. *)
Definition getRelativeLuminance (c : rgb) : num :=
  let rs := linearize (r c) in
  let gs := linearize (g c) in
  let bs := linearize (b c) in
  lit 0.2126 * rs + lit 0.7152 * gs + lit 0.0722 * bs.

(** [calculateContrastRatio]. *)
Definition calculateContrastRatio (color1 color2 : string) : num :=
  match hexToRgb color1, hexToRgb color2 with
  | Some rgb1, Some rgb2 =>
      let lum1 := getRelativeLuminance rgb1 in
      let lum2 := getRelativeLuminance rgb2 in
      let brightest := Math_max lum1 lum2 in
      let darkest := Math_min lum1 lum2 in
      (brightest + lit 0.05) / (darkest + lit 0.05)
  | _, _ => int 0
  end.

(** [simulateColorBlindness]; [None] is the TypeError raised by indexing
    an [undefined] matrix, which happens only after the colour has parsed. *)
Definition simulateColorBlindness (hexColor : string) (m : option matrix)
  : option string :=
  match hexToRgb hexColor with
  | None => Some hexColor
  | Some c =>
      match m with
      | None => None
      | Some ((m00, m01, m02), (m10, m11, m12), (m20, m21, m22)) =>
          let newR := Math_round (r c * m00 + g c * m01 + b c * m02) in
          let newG := Math_round (r c * m10 + g c * m11 + b c * m12) in
          let newB := Math_round (r c * m20 + g c * m21 + b c * m22) in
          Some (String "#"
                  (JS.padStart0 (JS.toString16 newR) 2 ++
                   JS.padStart0 (JS.toString16 newG) 2 ++
                   JS.padStart0 (JS.toString16 newB) 2))
      end
  end.

(** [calculateColorDifference]: Euclidean distance in RGB space. *)
Definition calculateColorDifference (color1 color2 : string) : num :=
  match hexToRgb color1, hexToRgb color2 with
  | Some rgb1, Some rgb2 =>
      let deltaR := r rgb1 - r rgb2 in
      let deltaG := g rgb1 - g rgb2 in
      let deltaB := b rgb1 - b rgb2 in
      Math_sqrt (deltaR * deltaR + deltaG * deltaG + deltaB * deltaB)
  | _, _ => int 0
  end.

(** *** The validator object

    The [message] fields, which are text for the report, are left out of
    the recorded entries. *)

Record pair : Type := {
  bg : string;
  fg : string;
  type : string;
  critical : bool
}.

(** The [result] object spread into the recorded entries. *)
Record contrastResult : Type := {
  background : string;
  foreground : string;
  backgroundValue : string;
  foregroundValue : string;
  ratio : num;
  resultType : string;
  resultCritical : bool
}.

(** The entries pushed on [violations], [warnings] and [passes], named
    after their [type] field. *)
Inductive entry : Type :=
  | missing_color (severity : string)
  | contrast_ratio (severity : option string) (result : contrastResult)
  | contrast_ratio_aaa (severity : string) (result : contrastResult)
  | color_blindness_warning (severity : string) (colorBlindnessType : string)
      (originalColors simulatedColors : string * string) (reductionRatio : num)
  | color_blindness_pass (colorBlindnessType : string).

Record validator : Type := {
  themeColors : gmap string string;
  violations : list entry;
  warnings : list entry;
  passes : list entry
}.

(** The validator as its constructor leaves it. *)
Definition newValidator (colors : gmap string string) : validator :=
  {| themeColors := colors; violations := []; warnings := []; passes := [] |}.

Definition pushViolation (e : entry) (v : validator) : validator :=
  {| themeColors := themeColors v; violations := violations v ++ [e];
     warnings := warnings v; passes := passes v |}.

Definition pushWarning (e : entry) (v : validator) : validator :=
  {| themeColors := themeColors v; violations := violations v;
     warnings := warnings v ++ [e]; passes := passes v |}.

Definition pushPass (e : entry) (v : validator) : validator :=
  {| themeColors := themeColors v; violations := violations v;
     warnings := warnings v; passes := passes v ++ [e] |}.

(** [validateContrastPair].  A threshold missing from the table is
    [undefined]; [<] converts it to NaN, and any comparison with NaN is
    false.  (A key inherited from [Object.prototype] gives an object, which
    [<] converts to NaN as well.) *)
Definition validateContrastPair (p : pair) (v : validator) : validator :=
  let bgColor := themeColors v !! bg p in
  let fgColor := themeColors v !! fg p in
  if negb (truthy bgColor) || negb (truthy fgColor) then
    pushWarning (missing_color "medium") v
  else
    let bgColor := default EmptyString bgColor in
    let fgColor := default EmptyString fgColor in
    let ratio := calculateContrastRatio bgColor fgColor in
    let requiredAA := AA WCAG_STANDARDS !! type p in
    let requiredAAA := AAA WCAG_STANDARDS !! type p in
    let result :=
      {| background := bg p; foreground := fg p;
         backgroundValue := bgColor; foregroundValue := fgColor;
         ratio := ratio; resultType := type p;
         resultCritical := critical p |} in
    if ratio <? ToNumber requiredAA then
      pushViolation
        (contrast_ratio (Some (if critical p then "high" else "medium")) result) v
    else if ratio <? ToNumber requiredAAA then
      pushWarning (contrast_ratio_aaa "low" result) v
    else
      pushPass (contrast_ratio None result) v.

(** The pairs checked by [validateContrastRatios]. *)
Definition criticalPairs : list pair :=
  [ Build_pair "editor.background" "editor.foreground" "normalText" true;
    Build_pair "editor.selectionBackground" "editor.foreground" "normalText" true;
    Build_pair "activityBar.background" "activityBar.foreground" "uiComponents" true;
    Build_pair "activityBar.background" "activityBar.activeForeground" "uiComponents" true;
    Build_pair "sideBar.background" "sideBar.foreground" "normalText" true;
    Build_pair "statusBar.background" "statusBar.foreground" "normalText" true;
    Build_pair "tab.activeBackground" "tab.activeForeground" "normalText" true;
    Build_pair "tab.inactiveBackground" "tab.inactiveForeground" "normalText" false;
    Build_pair "terminal.background" "terminal.foreground" "normalText" true ].

(** [validateContrastRatios]. *)
Definition validateContrastRatios (v : validator) : validator :=
  fold_left (fun v p => validateContrastPair p v) criticalPairs v.

(** The three comparisons of [validateContrastPair] on their own: which of
    the three lists a ratio is recorded in for a requirement category. *)
Inductive verdict : Type := Violation | WarningAAA | Pass.

Definition classify (ratio : num) (category : string) : verdict :=
  let requiredAA := AA WCAG_STANDARDS !! category in
  let requiredAAA := AAA WCAG_STANDARDS !! category in
  if ratio <? ToNumber requiredAA then Violation
  else if ratio <? ToNumber requiredAAA then WarningAAA
  else Pass.

(** Level AA is met when the pair is not a violation, level AAA when it is
    recorded as a pass. *)
Definition meetsAA (d : verdict) : bool :=
  match d with Violation => false | _ => true end.

Definition meetsAAA (d : verdict) : bool :=
  match d with Pass => true | _ => false end.

(** *** Colour blindness *)

(** The body of the loop of [validateColorBlindnessType] up to
    [reductionRatio]: the two simulated colours and the ratio of the
    distance after the simulation to the distance before it.  [None] is a
    raised TypeError. *)
Definition separation (m : option matrix) (color1 color2 : string)
  : option (string * string * num) :=
  simulated1 ← simulateColorBlindness color1 m;
  simulated2 ← simulateColorBlindness color2 m;
  let originalDiff := calculateColorDifference color1 color2 in
  let simulatedDiff := calculateColorDifference simulated1 simulated2 in
  Some (simulated1, simulated2, simulatedDiff / originalDiff).

(** [validateColorBlindnessType]. *)
Definition validateColorBlindnessType (type : string)
    (colorPairs : list (string * string)) (v : validator) : option validator :=
  let m := lookupMatrix COLOR_BLINDNESS_MATRICES type in
  foldl (fun acc colors =>
           v ← acc;
           '(simulated1, simulated2, reductionRatio) ←
              separation m colors.1 colors.2;
           if reductionRatio <? lit 0.3 then
             Some (pushWarning
                     (color_blindness_warning "medium" type colors
                        (simulated1, simulated2) reductionRatio) v)
           else
             Some (pushPass (color_blindness_pass type) v))
        (Some v) colorPairs.

(** The pairs checked by [validateColorBlindnessCompatibility]. *)
Definition importantColorPairs : list (string * string) :=
  [ ("#ff6b35", "#c792ea"); ("#64ffda", "#ff8c42");
    ("#ff6b6b", "#64ffda"); ("#82b1ff", "#c792ea") ].

(** [validateColorBlindnessCompatibility]. *)
Definition validateColorBlindnessCompatibility (v : validator)
  : option validator :=
  foldl (fun acc type => v ← acc; validateColorBlindnessType type importantColorPairs v)
        (Some v) (map fst COLOR_BLINDNESS_MATRICES).

End Engine.

Arguments rgb num : clear implicits.
Arguments matrix num : clear implicits.
Arguments entry num : clear implicits.
Arguments validator num : clear implicits.
Arguments contrastResult num : clear implicits.

End Validator.

(** ** The contrast helpers of the test suite *)

Module Suite.

Section Helpers.
Context {num : Type} {N : Number num}.
Local Open Scope num_scope.

Record rgb : Type := { r : num; g : num; b : num }.

(** [hexToRgb]: the regular expression
    [/^#?([a-f\d]{2})([a-f\d]{2})([a-f\d]{2})$/i] accepts an optional [#]
    followed by exactly six hex digits.  [None] is [null]. *)
Definition hexToRgb (hex : string) : option rgb :=
  let body := JS.stripHash hex in
  if (String.length body =? 6)%nat
     && forallb JS.isHexDigit (list_ascii_of_string body)
  then
    Some {| r := parseInt (JS.substr body 0 2);
            g := parseInt (JS.substr body 2 2);
            b := parseInt (JS.substr body 4 2) |}
  else None.

(** [getRelativeLuminance]. *)
Definition getRelativeLuminance (c : rgb) : num :=
  let rs := Validator.linearize (r c) in
  let gs := Validator.linearize (g c) in
  let bs := Validator.linearize (b c) in
  lit 0.2126 * rs + lit 0.7152 * gs + lit 0.0722 * bs.

(** [getContrastRatio]. *)
Definition getContrastRatio (color1 color2 : string) : num :=
  match hexToRgb color1, hexToRgb color2 with
  | Some rgb1, Some rgb2 =>
      let lum1 := getRelativeLuminance rgb1 in
      let lum2 := getRelativeLuminance rgb2 in
      let brightest := Math_max lum1 lum2 in
      let darkest := Math_min lum1 lum2 in
      (brightest + lit 0.05) / (darkest + lit 0.05)
  | _, _ => int 0
  end.

End Helpers.

Arguments rgb num : clear implicits.

End Suite.

(** ** Double precision: the arithmetic the program runs on *)

Module Binary64.

(** The double nearest to an integer. *)
Definition of_Z (z : Z) : float :=
  SF2Prim (binary_normalize prec emax z 0 false).

Definition isPosZero (x : float) : bool :=
  match PrimFloat.classify x with PZero => true | _ => false end.

Definition isNegZero (x : float) : bool :=
  match PrimFloat.classify x with NZero => true | _ => false end.

(** [Math.max] of two Numbers: NaN if either is NaN, and [+0] counts as
    larger than [-0]. *)
Definition max (x y : float) : float :=
  if PrimFloat.is_nan x || PrimFloat.is_nan y then PrimFloat.nan
  else if isPosZero y && isNegZero x then y
  else if PrimFloat.ltb x y then y
  else x.

(** [Math.min] of two Numbers. *)
Definition min (x y : float) : float :=
  if PrimFloat.is_nan x || PrimFloat.is_nan y then PrimFloat.nan
  else if isNegZero y && isPosZero x then y
  else if PrimFloat.ltb y x then y
  else x.

(** [Math.round], the integer nearest to [x] with ties towards +infinity,
    computed exactly from the sign, mantissa and exponent of [x]: [None]
    for NaN (and for the infinities, which the program cannot produce from
    two-digit channels). *)
Definition round (x : float) : option Z :=
  match Prim2SF x with
  | S754_zero _ => Some 0
  | S754_finite s m e =>
      let sm := if s then Z.neg m else Z.pos m in
      Some (if 0 <=? e then sm * 2 ^ e
            else (2 * sm + 2 ^ (- e)) / 2 ^ (1 - e))
  | S754_infinity _ => None
  | S754_nan => None
  end.

End Binary64.

(** The double-precision implementation of the interface, for a given
    [Math.pow].  [Math.sqrt] is the correctly rounded square root. *)
Definition binary64 (pow : float -> float -> float) : Number float := {|
  num_of_Z := Binary64.of_Z;
  num_nan := PrimFloat.nan;
  num_neg := PrimFloat.opp;
  num_add := PrimFloat.add;
  num_sub := PrimFloat.sub;
  num_mul := PrimFloat.mul;
  num_div := PrimFloat.div;
  num_lt := PrimFloat.ltb;
  num_le := PrimFloat.leb;
  Math_max := Binary64.max;
  Math_min := Binary64.min;
  Math_pow := pow;
  Math_sqrt := PrimFloat.sqrt;
  Math_round := Binary64.round
|}.

(** A textbook [Math.pow] for a positive base, [exp (y * ln x)] by
    truncated series, with the exact cases every implementation has:
    it stands for the engine's own routine where a concrete one is needed. *)
Module PowSeries.

Local Open Scope float_scope.

(** [sum_{k < n} t^(2k+1) / (2k+1)], by Horner's rule. *)
Fixpoint atanhSeries (n : nat) (k : float) (t2 : float) : float :=
  match n with
  | O => 0
  | S n' => 1 / k + t2 * atanhSeries n' (k + 2) t2
  end.

Definition ln (x : float) : float :=
  let t := (x - 1) / (x + 1) in
  2 * t * atanhSeries 400 1 (t * t).

(** [sum_{k < n} z^k / k!], by Horner's rule. *)
Fixpoint expSeries (n : nat) (k : float) (z : float) : float :=
  match n with
  | O => 1
  | S n' => 1 + z / k * expSeries n' (k + 1) z
  end.

Fixpoint squareTimes (n : nat) (x : float) : float :=
  match n with
  | O => x
  | S n' => squareTimes n' (x * x)
  end.

Definition exp (z : float) : float :=
  squareTimes 6 (expSeries 30 1 (z / 64)).

Definition pow (x y : float) : float :=
  if PrimFloat.is_nan x || PrimFloat.is_nan y then PrimFloat.nan
  else if PrimFloat.eqb y 0 then 1
  else if PrimFloat.eqb x 1 then 1
  else if PrimFloat.ltb 0 x then exp (y * ln x)
  else PrimFloat.nan.

End PowSeries.

(** ** Exact arithmetic: the values the doubles approximate *)

(** A real number, or [XNaN] for a result that is not a real number (NaN,
    or a division by zero). *)
Inductive xreal : Type :=
  | XNaN
  | XR (x : R).

Module Ideal.

Local Open Scope R_scope.

Definition lift1 (f : R -> R) (x : xreal) : xreal :=
  match x with XR x => XR (f x) | XNaN => XNaN end.

Definition lift2 (f : R -> R -> R) (x y : xreal) : xreal :=
  match x, y with XR x, XR y => XR (f x y) | _, _ => XNaN end.

Definition div (x y : xreal) : xreal :=
  match x, y with
  | XR x, XR y => if Req_dec_T y 0 then XNaN else XR (x / y)
  | _, _ => XNaN
  end.

Definition lt (x y : xreal) : bool :=
  match x, y with
  | XR x, XR y => if Rlt_dec x y then true else false
  | _, _ => false
  end.

Definition le (x y : xreal) : bool :=
  match x, y with
  | XR x, XR y => if Rle_dec x y then true else false
  | _, _ => false
  end.

(** [Math.pow] for a positive base; the program never raises another base
    to a power (a channel that is not positive takes the linear branch of
    [linearize]), and the model gives [XNaN] there. *)
Definition pow (x y : xreal) : xreal :=
  match x, y with
  | XR x, XR y => if Rlt_dec 0 x then XR (Rpower x y) else XNaN
  | _, _ => XNaN
  end.

Definition sqrt (x : xreal) : xreal :=
  match x with
  | XR x => if Rle_dec 0 x then XR (R_sqrt.sqrt x) else XNaN
  | XNaN => XNaN
  end.

(** [Math.round]: [floor (x + 1/2)]. *)
Definition round (x : xreal) : option Z :=
  match x with
  | XR x => Some (Zfloor (x + / 2))
  | XNaN => None
  end.

End Ideal.

(** The exact implementation of the interface. *)
Definition ideal : Number xreal := {|
  num_of_Z := fun z => XR (IZR z);
  num_nan := XNaN;
  num_neg := Ideal.lift1 Ropp;
  num_add := Ideal.lift2 Rplus;
  num_sub := Ideal.lift2 Rminus;
  num_mul := Ideal.lift2 Rmult;
  num_div := Ideal.div;
  num_lt := Ideal.lt;
  num_le := Ideal.le;
  Math_max := Ideal.lift2 Rmax;
  Math_min := Ideal.lift2 Rmin;
  Math_pow := Ideal.pow;
  Math_sqrt := Ideal.sqrt;
  Math_round := Ideal.round
|}.

(** ** The transform as WCAG 2.1 words it, over the reals *)

Module WCAG.

Local Open Scope R_scope.

(** A channel value [v] in 0..255 is normalised to [s = v / 255] and
    linearised. *)
Definition linear (v : Z) : R :=
  let s := IZR v / 255 in
  if Rle_dec s 0.03928 then s / 12.92
  else Rpower ((s + 0.055) / 1.055) 2.4.

Definition relativeLuminance (red green blue : Z) : R :=
  0.2126 * linear red + 0.7152 * linear green + 0.0722 * linear blue.

Definition contrastRatio (l1 l2 : R) : R :=
  (Rmax l1 l2 + 0.05) / (Rmin l1 l2 + 0.05).

End WCAG.

(** ** Well-formed colour literals *)

(** An optional [#] followed by 3, 6 or 8 hex digits. *)
Definition wellFormed (s : string) : bool :=
  let body := JS.stripHash s in
  ((String.length body =? 3)%nat || (String.length body =? 6)%nat
   || (String.length body =? 8)%nat)
  && forallb JS.isHexDigit (list_ascii_of_string body).

(** The three channels of a well-formed literal, worked out digit by digit:
    a digit of the short form counts twice. *)
Definition digit (c : ascii) : Z := default 0 (JS.hexValue c).

Definition channels (s : string) : option (Z * Z * Z) :=
  match list_ascii_of_string (JS.stripHash s) with
  | [c1; c2; c3] =>
      Some (17 * digit c1, 17 * digit c2, 17 * digit c3)
  | c1 :: c2 :: c3 :: c4 :: c5 :: c6 :: rest =>
      Some (16 * digit c1 + digit c2, 16 * digit c3 + digit c4,
            16 * digit c5 + digit c6)
  | _ => None
  end.

Definition byte (n : Z) : Prop := 0 <= n <= 255.

(** Every 8-bit code unit, for proofs by enumeration. *)
Definition allAscii : list ascii := map ascii_of_nat (seq 0 256).

(** Decidable equality of [parseInt] results. *)
Definition parsed_eqb (p q : JS.parsed) : bool :=
  match p, q with
  | JS.PNaN, JS.PNaN => true
  | JS.PInt s m, JS.PInt t n => Bool.eqb s t && (m =? n)
  | _, _ => false
  end.

(** ** Definitions used to state the properties *)

(** [Math.pow(1, 2.4)] is 1, as it is in every engine. *)
Definition powOne (pow : float -> float -> float) : Prop :=
  pow (int (N := binary64 pow) 1) (lit (N := binary64 pow) 2.4)
  = int (N := binary64 pow) 1.

(** [q ^ n] by repeated multiplication. *)
Fixpoint Qpow (q : Q) (n : nat) : Q :=
  match n with
  | O => 1%Q
  | S n' => (q * Qpow q n')%Q
  end.

(** The test that encloses [x ^ 2.4] between [lo] and [hi]: since
    [2.4 = 12 / 5], it compares fifth powers with the twelfth power of [x]. *)
Definition encloses (x lo hi : Q) : bool :=
  negb (Qle_bool x 0) && Qle_bool 0 lo && Qle_bool 0 hi
  && Qle_bool (Qpow lo 5) (Qpow x 12) && Qle_bool (Qpow x 12) (Qpow hi 5).

(** The four requirement categories of [WCAG_STANDARDS]. *)
Definition categories : list string :=
  [ "normalText"; "largeText"; "uiComponents"; "graphicalObjects" ].

(** The first pair of [criticalPairs]: the editor background and
    foreground, as normal text. *)
Definition editorPair : Validator.pair :=
  Validator.Build_pair "editor.background" "editor.foreground" "normalText" true.

(** A pair of the default theme in a category that [WCAG_STANDARDS] does
    not have; its two colours are the same, so its contrast ratio is 1. *)
Definition strayPair : Validator.pair :=
  Validator.Build_pair "editor.background" "activityBar.background" "headings" true.

(** The length test of [hexToRgb]. *)
Definition lengthAccepted (s : string) : bool :=
  let n := String.length (JS.stripHash s) in
  ((n =? 8) || (n =? 6) || (n =? 3))%nat.





#[local] Existing Instance ideal.

(** ** Facts about the string primitives *)

Lemma allAscii_complete (c : ascii) : In c allAscii.
Proof.
  unfold allAscii. rewrite <- (ascii_nat_embedding c).
  apply in_map, in_seq. pose proof (nat_ascii_bounded c). lia.
Qed.

Lemma forall_ascii (P : ascii -> bool) :
  forallb P allAscii = true -> forall c, P c = true.
Proof.
  intros HP c. rewrite forallb_forall in HP. apply HP, allAscii_complete.
Qed.

Lemma forall_ascii2 (P : ascii -> ascii -> bool) :
  forallb (fun c1 => forallb (P c1) allAscii) allAscii = true ->
  forall c1 c2, P c1 c2 = true.
Proof.
  intros HP c1 c2.
  apply (forall_ascii (P c1)), (forall_ascii (fun c => forallb (P c) allAscii) HP).
Qed.

Lemma parsed_eqb_eq (p q : JS.parsed) : parsed_eqb p q = true -> p = q.
Proof.
  destruct p as [|s m], q as [|t n]; simpl; try discriminate; auto.
  intros Hpq. apply andb_prop in Hpq as [Hs Hm].
  apply Bool.eqb_prop in Hs. apply Z.eqb_eq in Hm. congruence.
Qed.

(** Two hex digits parse to the byte they denote. *)
Lemma parseInt16_two_digits (c1 c2 : ascii) :
  JS.isHexDigit c1 = true -> JS.isHexDigit c2 = true ->
  JS.parseInt16 (String c1 (String c2 EmptyString))
  = JS.PInt false (16 * digit c1 + digit c2).
Proof.
  intros H1 H2. apply parsed_eqb_eq.
  pose proof (forall_ascii2
    (fun c1 c2 =>
       implb (JS.isHexDigit c1)
         (implb (JS.isHexDigit c2)
            (parsed_eqb (JS.parseInt16 (String c1 (String c2 EmptyString)))
               (JS.PInt false (16 * digit c1 + digit c2)))))) as Hall.
  specialize (Hall ltac:(vm_compute; reflexivity) c1 c2). simpl in Hall.
  rewrite H1, H2 in Hall. exact Hall.
Qed.

Lemma digit_range (c : ascii) : JS.isHexDigit c = true -> 0 <= digit c <= 15.
Proof.
  intros Hc.
  pose proof (forall_ascii
    (fun c => implb (JS.isHexDigit c) ((0 <=? digit c) && (digit c <=? 15)))
    ltac:(vm_compute; reflexivity) c) as Hall.
  simpl in Hall. rewrite Hc in Hall. simpl in Hall.
  apply andb_prop in Hall as [Hlo Hhi]. lia.
Qed.

Lemma parseInt_two_digits {num} {N : Number num} (c1 c2 : ascii) :
  JS.isHexDigit c1 = true -> JS.isHexDigit c2 = true ->
  parseInt (String c1 (String c2 EmptyString)) = num_of_Z (16 * digit c1 + digit c2).
Proof.
  intros H1 H2. unfold parseInt. now rewrite parseInt16_two_digits.
Qed.

Lemma channel_byte (c1 c2 : ascii) :
  JS.isHexDigit c1 = true -> JS.isHexDigit c2 = true ->
  byte (16 * digit c1 + digit c2).
Proof.
  intros H1 H2. pose proof (digit_range c1 H1). pose proof (digit_range c2 H2).
  unfold byte. lia.
Qed.

Lemma short_byte (c : ascii) : JS.isHexDigit c = true -> byte (17 * digit c).
Proof. intros Hc. pose proof (digit_range c Hc). unfold byte. lia. Qed.

Lemma isHexDigit_not_hash (c : ascii) (s : string) :
  JS.isHexDigit c = true -> JS.stripHash (String c s) = String c s.
Proof.
  intros Hc.
  pose proof (forall_ascii
    (fun c => implb (JS.isHexDigit c) (negb (Ascii.eqb c "#")))
    ltac:(vm_compute; reflexivity) c) as Hall.
  simpl in Hall. rewrite Hc in Hall. simpl in Hall.
  apply negb_true_iff, Ascii.eqb_neq in Hall.
  unfold JS.stripHash. destruct c as [[] [] [] [] [] [] [] []]; try reflexivity.
  now contradiction Hall.
Qed.

(** A well-formed literal parses, and to the channels its digits denote. *)
Lemma hexToRgb_wellFormed {num} {N : Number num} (s : string) :
  wellFormed s = true ->
  exists nr ng nb alpha,
    channels s = Some (nr, ng, nb) /\ byte nr /\ byte ng /\ byte nb /\
    Validator.hexToRgb s
    = Some {| Validator.r := num_of_Z nr; Validator.g := num_of_Z ng;
              Validator.b := num_of_Z nb; Validator.a := alpha |}.
Proof.
  unfold wellFormed, channels, Validator.hexToRgb.
  destruct (JS.stripHash s) as [|c1 [|c2 [|c3 [|c4 [|c5 [|c6 [|c7 [|c8 [|c9 rest]]]]]]]]];
    simpl; try discriminate.
  - (* three digits *)
    intros Hs. repeat (apply andb_prop in Hs as [? Hs]).
    exists (17 * digit c1), (17 * digit c2), (17 * digit c3), (int 1).
    unfold JS.twice; simpl. rewrite !parseInt_two_digits by assumption.
    replace (16 * digit c1 + digit c1) with (17 * digit c1) by lia.
    replace (16 * digit c2 + digit c2) with (17 * digit c2) by lia.
    replace (16 * digit c3 + digit c3) with (17 * digit c3) by lia.
    split; [reflexivity|]. repeat (split; [now apply short_byte|]). reflexivity.
  - intros Hs. repeat (apply andb_prop in Hs as [? Hs]).
    eexists _, _, _, _. unfold JS.substr; simpl.
    rewrite !parseInt_two_digits by assumption.
    split; [reflexivity|]. repeat (split; [now apply channel_byte|]). reflexivity.
  - intros Hs. repeat (apply andb_prop in Hs as [? Hs]).
    eexists _, _, _, _. unfold JS.substr; simpl.
    rewrite !parseInt_two_digits by assumption.
    split; [reflexivity|]. repeat (split; [now apply channel_byte|]). reflexivity.
Qed.

(** ** Facts about the order of doubles *)

Section FloatOrder.

Lemma SFcompare_swap (f1 f2 : spec_float) :
  SFcompare f2 f1 = option_map CompOpp (SFcompare f1 f2).
Proof.
  destruct f1 as [s1|s1| |s1 m1 e1], f2 as [s2|s2| |s2 m2 e2]; simpl;
    try reflexivity; try (destruct s1; reflexivity); try (destruct s2; reflexivity);
    try (destruct s1, s2; reflexivity).
  change (Pos.compare_cont Eq m2 m1) with (Pos.compare m2 m1).
  change (Pos.compare_cont Eq m1 m2) with (Pos.compare m1 m2).
  destruct s1, s2; simpl; try reflexivity;
    rewrite (Z.compare_antisym e1 e2), (Pos.compare_antisym m1 m2);
    destruct (e1 ?= e2); simpl; try reflexivity;
    now rewrite CompOpp_involutive.
Qed.

Lemma SFcompare_Eq (f1 f2 : spec_float) :
  SFcompare f1 f2 = Some Eq ->
  f1 = f2 \/ exists s1 s2, f1 = S754_zero s1 /\ f2 = S754_zero s2.
Proof.
  destruct f1 as [s1|s1| |s1 m1 e1], f2 as [s2|s2| |s2 m2 e2]; simpl;
    try discriminate; try (destruct s1; discriminate); try (destruct s2; discriminate).
  - intros _. right. eauto.
  - destruct s1, s2; try discriminate; now left.
  - intros Hc. left. injection Hc as Hc.
    destruct s1, s2; try discriminate;
      destruct (e1 ?= e2) eqn:Ee; try discriminate;
      apply Z.compare_eq in Ee; subst e2.
    + apply (f_equal CompOpp) in Hc. rewrite CompOpp_involutive in Hc. simpl in Hc.
      apply Pos.compare_eq in Hc. now subst.
    + apply Pos.compare_eq in Hc. now subst.
Qed.

Lemma SFcompare_refl (f1 f2 : spec_float) (c : comparison) :
  SFcompare f1 f2 = Some c -> SFeqb f1 f1 = true /\ SFeqb f2 f2 = true.
Proof.
  assert (Hrefl : forall f, f <> S754_nan -> SFeqb f f = true).
  { intros [s|s| |s m e] Hf; unfold SFeqb; simpl; try contradiction;
      try reflexivity; try (destruct s; reflexivity).
    destruct s; rewrite Z.compare_refl; fold (Pos.compare m m);
      now rewrite Pos.compare_refl. }
  intros Hc. split; apply Hrefl; intros E; rewrite E in Hc.
  - discriminate.
  - destruct f1; discriminate.
Qed.

Lemma SFclassify_zero (f : spec_float) :
  (match SF64classify f with PZero => true | _ => false end = true -> f = S754_zero false)
  /\ (match SF64classify f with NZero => true | _ => false end = true -> f = S754_zero true).
Proof.
  split; intros Hf; destruct f as [[]|[]| |[] m e]; simpl in Hf;
    try discriminate Hf; try reflexivity;
    match type of Hf with
    | context [if ?c then _ else _] => destruct c; discriminate Hf
    end.
Qed.

(** Two doubles are unordered (one is NaN), strictly ordered one way or
    the other, equal, or two zeros. *)
Lemma binary64_order (x y : float) :
  (PrimFloat.is_nan x || PrimFloat.is_nan y = true)
  \/ (PrimFloat.is_nan x || PrimFloat.is_nan y = false
      /\ ((PrimFloat.ltb x y = true /\ PrimFloat.ltb y x = false
           /\ Prim2SF x <> Prim2SF y
           /\ ~ (exists s1 s2, Prim2SF x = S754_zero s1 /\ Prim2SF y = S754_zero s2))
          \/ (PrimFloat.ltb y x = true /\ PrimFloat.ltb x y = false
              /\ Prim2SF x <> Prim2SF y
              /\ ~ (exists s1 s2, Prim2SF x = S754_zero s1 /\ Prim2SF y = S754_zero s2))
          \/ (PrimFloat.ltb x y = false /\ PrimFloat.ltb y x = false
              /\ (x = y \/ exists s1 s2, Prim2SF x = S754_zero s1
                                         /\ Prim2SF y = S754_zero s2)))).
Proof.
  unfold PrimFloat.is_nan. rewrite !FloatAxioms.eqb_spec, !FloatAxioms.ltb_spec. unfold SFltb.
  rewrite (SFcompare_swap (Prim2SF x) (Prim2SF y)).
  destruct (SFcompare (Prim2SF x) (Prim2SF y)) as [c|] eqn:Ec.
  - right. destruct (SFcompare_refl _ _ _ Ec) as [Rx Ry]. rewrite Rx, Ry.
    split; [reflexivity|].
    assert (Hne : c <> Eq -> Prim2SF x <> Prim2SF y
                  /\ ~ (exists s1 s2, Prim2SF x = S754_zero s1
                                      /\ Prim2SF y = S754_zero s2)).
    { intros Hc. split.
      - intros E. rewrite E in Ec.
        destruct (Prim2SF y) as [s|s| |s m e]; simpl in Ec; try discriminate;
          try (destruct s; congruence).
        destruct s; rewrite Z.compare_refl in Ec; fold (Pos.compare m m) in Ec;
          rewrite Pos.compare_refl in Ec; simpl in Ec; congruence.
      - intros (s1 & s2 & E1 & E2). rewrite E1, E2 in Ec. simpl in Ec. congruence. }
    destruct c; simpl.
    + right; right. repeat split.
      destruct (SFcompare_Eq _ _ Ec) as [E|E]; [left; now apply Prim2SF_inj | now right].
    + left. destruct Hne as [? ?]; [discriminate|]. now repeat split.
    + right; left. destruct Hne as [? ?]; [discriminate|]. now repeat split.
  - left.
    assert (Hn : Prim2SF x = S754_nan \/ Prim2SF y = S754_nan).
    { destruct (Prim2SF x) as [s1|s1| |s1 m1 e1], (Prim2SF y) as [s2|s2| |s2 m2 e2];
        simpl in Ec; auto; try discriminate Ec;
        try (destruct s1; discriminate Ec); try (destruct s2; discriminate Ec). }
    destruct Hn as [-> | ->]; [reflexivity | apply orb_true_r].
Qed.

Lemma binary64_zero (x : float) (s : bool) :
  Prim2SF x = S754_zero s -> x = if s then (-0)%float else 0%float.
Proof.
  intros Hx. apply Prim2SF_inj. rewrite Hx. now destruct s.
Qed.

(** Decides the zero tests of [Binary64.max] and [Binary64.min] when [x]
    and [y] are not both zeros. *)
Ltac zero_tests x y Hz :=
  unfold Binary64.isPosZero, Binary64.isNegZero;
  rewrite !FloatAxioms.classify_spec;
  destruct (match SF64classify (Prim2SF y) with PZero => true | _ => false end) eqn:?E;
  destruct (match SF64classify (Prim2SF x) with NZero => true | _ => false end) eqn:?E;
  destruct (match SF64classify (Prim2SF x) with PZero => true | _ => false end) eqn:?E;
  destruct (match SF64classify (Prim2SF y) with NZero => true | _ => false end) eqn:?E;
  simpl; try reflexivity; exfalso; apply Hz;
  repeat match goal with
         | E : _ = true |- _ => apply SFclassify_zero in E
         end; eauto.

Lemma binary64_max_comm (x y : float) : Binary64.max x y = Binary64.max y x.
Proof.
  unfold Binary64.max.
  destruct (binary64_order x y) as [Hnan | (Hnan & [H | [H | H]])].
  - rewrite (orb_comm (PrimFloat.is_nan y)), Hnan. reflexivity.
  - destruct H as (-> & -> & _ & Hz).
    rewrite (orb_comm (PrimFloat.is_nan y)), Hnan.
    zero_tests x y Hz.
  - destruct H as (-> & -> & _ & Hz).
    rewrite (orb_comm (PrimFloat.is_nan y)), Hnan.
    zero_tests x y Hz.
  - destruct H as (_ & _ & [-> | (s1 & s2 & E1 & E2)]); [reflexivity|].
    apply binary64_zero in E1, E2. subst x y.
    destruct s1, s2; vm_compute; reflexivity.
Qed.

Lemma binary64_min_comm (x y : float) : Binary64.min x y = Binary64.min y x.
Proof.
  unfold Binary64.min.
  destruct (binary64_order x y) as [Hnan | (Hnan & [H | [H | H]])].
  - rewrite (orb_comm (PrimFloat.is_nan y)), Hnan. reflexivity.
  - destruct H as (-> & -> & _ & Hz).
    rewrite (orb_comm (PrimFloat.is_nan y)), Hnan.
    zero_tests x y Hz.
  - destruct H as (-> & -> & _ & Hz).
    rewrite (orb_comm (PrimFloat.is_nan y)), Hnan.
    zero_tests x y Hz.
  - destruct H as (_ & _ & [-> | (s1 & s2 & E1 & E2)]); [reflexivity|].
    apply binary64_zero in E1, E2. subst x y.
    destruct s1, s2; vm_compute; reflexivity.
Qed.





(** Nothing is below NaN. *)
Lemma binary64_lt_nan (x : float) : PrimFloat.ltb x PrimFloat.nan = false.
Proof.
  rewrite ltb_spec. change (Prim2SF PrimFloat.nan) with S754_nan.
  unfold SFltb. destruct (Prim2SF x); reflexivity.
Qed.

End FloatOrder.

(** ** Facts about the exact arithmetic *)

Section IdealFacts.
Local Open Scope R_scope.

Lemma IZR_pos_neq_0 (p : positive) : IZR (Z.pos p) <> 0.
Proof. apply not_0_IZR. discriminate. Qed.

Lemma ideal_lit (q : Q) : (lit q : xreal) = XR (Q2R q).
Proof.
  unfold lit; simpl. destruct (Req_dec_T (IZR (Z.pos (Qden q))) 0) as [Hz|_].
  - now apply IZR_pos_neq_0 in Hz.
  - reflexivity.
Qed.

Lemma ideal_div (x y : R) : y <> 0 -> (XR x / XR y)%num = XR (x / y).
Proof.
  intros Hy. simpl. destruct (Req_dec_T y 0); [contradiction | reflexivity].
Qed.

Lemma ideal_le (x y : R) : (XR x <=? XR y)%num = if Rle_dec x y then true else false.
Proof. reflexivity. Qed.

Lemma ideal_lt (x y : R) : (XR x <? XR y)%num = if Rlt_dec x y then true else false.
Proof. reflexivity. Qed.

Lemma ideal_linearize (v : Z) :
  0 <= IZR v -> Validator.linearize (XR (IZR v)) = XR (WCAG.linear v).
Proof.
  intros Hv. unfold Validator.linearize, WCAG.linear, int.
  change (num_of_Z 255) with (XR 255).
  rewrite ideal_div by lra. rewrite !ideal_lit, ideal_le.
  replace (Q2R 0.03928) with 0.03928 by (unfold Q2R; simpl; lra).
  destruct (Rle_dec (IZR v / 255) 0.03928) as [Hle|Hgt].
  - rewrite ideal_div by (unfold Q2R; simpl; lra).
    f_equal; unfold Q2R; simpl; lra.
  - change (XR (IZR v / 255) + XR (Q2R 0.055))%num with (XR (IZR v / 255 + Q2R 0.055)).
    rewrite ideal_div by (unfold Q2R; simpl; lra).
    simpl. destruct (Rlt_dec 0 ((IZR v / 255 + Q2R 0.055) / Q2R 1.055)) as [_|Hn].
    + do 2 f_equal; unfold Q2R; simpl; lra.
    + exfalso. apply Hn. unfold Q2R; simpl.
      apply Rdiv_lt_0_compat; lra.
Qed.
End IdealFacts.

(** ** Relative luminance and contrast ratio *)

Section IdealLuminance.
Local Open Scope R_scope.

Lemma byte_IZR (n : Z) : byte n -> 0 <= IZR n <= 255.
Proof. intros [Hlo Hhi]. split; [apply (IZR_le 0) | apply (IZR_le n 255)]; assumption. Qed.

Lemma Rpower_1_l (y : R) : Rpower 1 y = 1.
Proof. unfold Rpower. now rewrite ln_1, Rmult_0_r, exp_0. Qed.

Lemma linear_range (v : Z) : byte v -> 0 <= WCAG.linear v <= 1.
Proof.
  intros Hv. apply byte_IZR in Hv. unfold WCAG.linear.
  destruct (Rle_dec (IZR v / 255) 0.03928) as [Hle|Hgt].
  - lra.
  - assert (Hy : 0 < (IZR v / 255 + 0.055) / 1.055 <= 1) by lra.
    split.
    + left. apply exp_pos.
    + rewrite <- (Rpower_1_l 2.4). apply Rle_Rpower_l; lra.
Qed.

Lemma relativeLuminance_range (nr ng nb : Z) :
  byte nr -> byte ng -> byte nb -> 0 <= WCAG.relativeLuminance nr ng nb <= 1.
Proof.
  intros Hr Hg Hb. unfold WCAG.relativeLuminance.
  pose proof (linear_range nr Hr). pose proof (linear_range ng Hg).
  pose proof (linear_range nb Hb). lra.
Qed.

Lemma ideal_getRelativeLuminance (nr ng nb : Z) (alpha : xreal) :
  byte nr -> byte ng -> byte nb ->
  Validator.getRelativeLuminance
    {| Validator.r := XR (IZR nr); Validator.g := XR (IZR ng);
       Validator.b := XR (IZR nb); Validator.a := alpha |}
  = XR (WCAG.relativeLuminance nr ng nb).
Proof.
  intros Hr%byte_IZR Hg%byte_IZR Hb%byte_IZR.
  unfold Validator.getRelativeLuminance, WCAG.relativeLuminance; simpl Validator.r; simpl Validator.g; simpl Validator.b.
  rewrite !ideal_linearize, !ideal_lit by lra. simpl.
  f_equal; unfold Q2R; simpl; lra.
Qed.

Lemma wcag_ratio_bounds (l1 l2 : R) :
  0 <= l1 <= 1 -> 0 <= l2 <= 1 -> 1 <= WCAG.contrastRatio l1 l2 <= 21.
Proof.
  intros H1 H2. unfold WCAG.contrastRatio.
  set (hi := Rmax l1 l2). set (lo := Rmin l1 l2).
  assert (Hlo : 0 <= lo) by (unfold lo; apply Rmin_glb; lra).
  assert (Hhi : hi <= 1) by (unfold hi; apply Rmax_lub; lra).
  assert (Hlohi : lo <= hi).
  { unfold lo, hi. apply Rle_trans with l1; [apply Rmin_l | apply Rmax_l]. }
  assert (Hq : (hi + 0.05) / (lo + 0.05) * (lo + 0.05) = hi + 0.05) by (field; lra).
  set (q := (hi + 0.05) / (lo + 0.05)) in *.
  split.
  - destruct (Rle_dec 1 q) as [|Hn]; [assumption | exfalso; nra].
  - destruct (Rle_dec q 21) as [|Hn]; [assumption | exfalso; nra].
Qed.

Lemma ideal_contrast (x y : R) :
  0 <= x -> 0 <= y ->
  ((Math_max (XR x) (XR y) + lit 0.05) / (Math_min (XR x) (XR y) + lit 0.05))%num
  = XR (WCAG.contrastRatio x y).
Proof.
  intros Hx Hy. rewrite !ideal_lit. simpl Math_max. simpl Math_min.
  change (XR (Rmax x y) + XR (Q2R 0.05))%num with (XR (Rmax x y + Q2R 0.05)).
  change (XR (Rmin x y) + XR (Q2R 0.05))%num with (XR (Rmin x y + Q2R 0.05)).
  assert (0 <= Rmin x y) by (apply Rmin_glb; assumption).
  rewrite ideal_div by (unfold Q2R; simpl; lra).
  unfold WCAG.contrastRatio. do 2 f_equal; unfold Q2R; simpl; lra.
Qed.

(** On well-formed literals the contrast ratio is the WCAG ratio of the
    two WCAG luminances. *)
Lemma ideal_calculateContrastRatio (c1 c2 : string) :
  wellFormed c1 = true -> wellFormed c2 = true ->
  exists r1 g1 b1 r2 g2 b2,
    channels c1 = Some (r1, g1, b1) /\ channels c2 = Some (r2, g2, b2) /\
    byte r1 /\ byte g1 /\ byte b1 /\ byte r2 /\ byte g2 /\ byte b2 /\
    Validator.calculateContrastRatio c1 c2
    = XR (WCAG.contrastRatio (WCAG.relativeLuminance r1 g1 b1)
                             (WCAG.relativeLuminance r2 g2 b2)).
Proof.
  intros H1 H2.
  destruct (hexToRgb_wellFormed (N := ideal) c1 H1) as (r1 & g1 & b1 & a1 & Hc1 & Hr1 & Hg1 & Hb1 & E1).
  destruct (hexToRgb_wellFormed (N := ideal) c2 H2) as (r2 & g2 & b2 & a2 & Hc2 & Hr2 & Hg2 & Hb2 & E2).
  exists r1, g1, b1, r2, g2, b2. repeat (split; [assumption|]).
  unfold Validator.calculateContrastRatio. rewrite E1, E2.
  change (num_of_Z ?z) with (XR (IZR z)).
  rewrite !ideal_getRelativeLuminance by assumption.
  apply ideal_contrast; apply relativeLuminance_range; assumption.
Qed.
End IdealLuminance.

Lemma linear_0 : WCAG.linear 0 = 0%R.
Proof.
  unfold WCAG.linear. destruct (Rle_dec (0 / 255) 0.03928) as [_|Hn]; lra.
Qed.

Lemma linear_255 : WCAG.linear 255 = 1%R.
Proof.
  unfold WCAG.linear. destruct (Rle_dec (255 / 255) 0.03928) as [Hle|_]; [lra|].
  replace ((255 / 255 + 0.055) / 1.055)%R with 1%R by lra. apply Rpower_1_l.
Qed.

Lemma binary64_white (pow : float -> float -> float) :
  powOne pow ->
  Validator.getRelativeLuminance (N := binary64 pow)
    <$> Validator.hexToRgb (N := binary64 pow) "#FFFFFF"
  = Some 1%float.
Proof.
  intros Hpow. vm_compute in Hpow. vm_compute. rewrite Hpow. reflexivity.
Qed.

Lemma binary64_black (pow : float -> float -> float) :
  Validator.getRelativeLuminance (N := binary64 pow)
    <$> Validator.hexToRgb (N := binary64 pow) "#000000"
  = Some 0%float.
Proof. vm_compute. reflexivity. Qed.

(** C1: the relative luminance of a colour with channels in 0..255 is the
    WCAG 2.1 transform of its channels (normalise by 255, linearise with
    the 0.03928 breakpoint, weigh by 0.2126, 0.7152 and 0.0722), in the
    validator and in the test suite alike; white has luminance 1 and
    black has luminance 0, in exact arithmetic and, as soon as
    [Math.pow(1, 2.4)] is 1, in double precision. *)
Theorem relativeLuminance_is_WCAG_transform (pow : float -> float -> float) :
  powOne pow ->
  (forall (red green blue : Z) (alpha : xreal),
      byte red -> byte green -> byte blue ->
      Validator.getRelativeLuminance
        {| Validator.r := int red; Validator.g := int green;
           Validator.b := int blue; Validator.a := alpha |}
      = XR (WCAG.relativeLuminance red green blue)
      /\ Suite.getRelativeLuminance
           {| Suite.r := int red; Suite.g := int green; Suite.b := int blue |}
         = XR (WCAG.relativeLuminance red green blue))
  /\ Validator.getRelativeLuminance <$> Validator.hexToRgb "#FFFFFF" = Some (XR 1)
  /\ Validator.getRelativeLuminance <$> Validator.hexToRgb "#000000" = Some (XR 0)
  /\ Validator.getRelativeLuminance (N := binary64 pow)
    <$> Validator.hexToRgb (N := binary64 pow) "#FFFFFF"
     = Some 1%float
  /\ Validator.getRelativeLuminance (N := binary64 pow)
    <$> Validator.hexToRgb (N := binary64 pow) "#000000"
     = Some 0%float.
Proof.
  intros Hpow. split; [|split; [|split; [|split]]].
  - intros red green blue alpha Hr Hg Hb. split.
    + now apply ideal_getRelativeLuminance.
    + apply (ideal_getRelativeLuminance red green blue (XR 0)); assumption.
  - change (Validator.hexToRgb "#FFFFFF")
      with (Some {| Validator.r := XR (IZR 255); Validator.g := XR (IZR 255);
                    Validator.b := XR (IZR 255); Validator.a := XR (IZR 1) |}).
    cbn [fmap option_fmap option_map].
    rewrite ideal_getRelativeLuminance by (unfold byte; lia).
    unfold WCAG.relativeLuminance. rewrite linear_255. do 2 f_equal. lra.
  - change (Validator.hexToRgb "#000000")
      with (Some {| Validator.r := XR (IZR 0); Validator.g := XR (IZR 0);
                    Validator.b := XR (IZR 0); Validator.a := XR (IZR 1) |}).
    cbn [fmap option_fmap option_map].
    rewrite ideal_getRelativeLuminance by (unfold byte; lia).
    unfold WCAG.relativeLuminance. rewrite linear_0. do 2 f_equal. lra.
  - now apply binary64_white.
  - apply binary64_black.
Qed.

Lemma powOne_PowSeries : powOne PowSeries.pow.
Proof. vm_compute. reflexivity. Qed.

Lemma relativeLuminance_is_WCAG_transform_witness :
  powOne PowSeries.pow /\
  (byte 26 /\ byte 13 /\ byte 38) /\
  Validator.getRelativeLuminance
    {| Validator.r := int 26; Validator.g := int 13;
       Validator.b := int 38; Validator.a := int 1 |}
  = XR (WCAG.relativeLuminance 26 13 38).
Proof.
  split; [exact powOne_PowSeries|].
  split; [unfold byte; lia|].
  destruct (relativeLuminance_is_WCAG_transform PowSeries.pow powOne_PowSeries)
    as [Hall _].
  apply (Hall 26 13 38 (int 1)); unfold byte; lia.
Defined.

Lemma wcag_ratio_same (l : R) : (0 <= l)%R -> WCAG.contrastRatio l l = 1%R.
Proof.
  intros Hl. unfold WCAG.contrastRatio.
  rewrite Rmax_left, Rmin_left by lra. field. lra.
Qed.

Lemma binary64_black_white (pow : float -> float -> float) :
  powOne pow ->
  Validator.calculateContrastRatio (N := binary64 pow) "#000000" "#FFFFFF" = 21%float.
Proof.
  intros Hpow. vm_compute in Hpow. vm_compute. rewrite !Hpow.
  vm_compute. reflexivity.
Qed.

(** C2: for well-formed colours in exact arithmetic the contrast ratio is
    a real number between 1 and 21, and it is 1 when the two luminances are
    equal; black against white gives 21 in exact arithmetic and, as soon
    as [Math.pow(1, 2.4)] is 1, exactly 21 in double precision. *)
Theorem contrastRatio_range_1_21 (pow : float -> float -> float) :
  powOne pow ->
  (forall a b : string,
      wellFormed a = true -> wellFormed b = true ->
      exists x : R,
        Validator.calculateContrastRatio a b = XR x /\ (1 <= x <= 21)%R)
  /\ (forall (a b : string) (ca cb : Validator.rgb xreal),
      wellFormed a = true -> wellFormed b = true ->
      Validator.hexToRgb a = Some ca -> Validator.hexToRgb b = Some cb ->
      Validator.getRelativeLuminance ca = Validator.getRelativeLuminance cb ->
      Validator.calculateContrastRatio a b = XR 1)
  /\ Validator.calculateContrastRatio "#000000" "#FFFFFF" = XR 21
  /\ Validator.calculateContrastRatio (N := binary64 pow) "#000000" "#FFFFFF"
     = 21%float.
Proof.
  intros Hpow. split; [|split; [|split]].
  - intros a b Ha Hb.
    destruct (ideal_calculateContrastRatio a b Ha Hb)
      as (r1 & g1 & b1 & r2 & g2 & b2 & _ & _ & ? & ? & ? & ? & ? & ? & E).
    eexists. split; [exact E|].
    apply wcag_ratio_bounds; apply relativeLuminance_range; assumption.
  - intros a b ca cb Ha Hb Eca Ecb Hlum.
    destruct (hexToRgb_wellFormed (N := ideal) a Ha)
      as (r1 & g1 & b1 & a1 & _ & Hr1 & Hg1 & Hb1 & E1).
    destruct (hexToRgb_wellFormed (N := ideal) b Hb)
      as (r2 & g2 & b2 & a2 & _ & Hr2 & Hg2 & Hb2 & E2).
    unfold Validator.calculateContrastRatio. rewrite Eca, Ecb, <- Hlum.
    rewrite E1 in Eca. injection Eca as <-.
    change (num_of_Z ?z) with (XR (IZR z)).
    rewrite ideal_getRelativeLuminance by assumption.
    pose proof (relativeLuminance_range r1 g1 b1 Hr1 Hg1 Hb1).
    rewrite ideal_contrast by lra. f_equal. apply wcag_ratio_same. lra.
  - destruct (ideal_calculateContrastRatio "#000000" "#FFFFFF" eq_refl eq_refl)
      as (r1 & g1 & b1 & r2 & g2 & b2 & C1 & C2 & _ & _ & _ & _ & _ & _ & E).
    rewrite E. vm_compute in C1, C2. injection C1 as <- <- <-. injection C2 as <- <- <-.
    unfold WCAG.relativeLuminance. rewrite linear_0, linear_255.
    unfold WCAG.contrastRatio. f_equal.
    replace (0.2126 * 0 + 0.7152 * 0 + 0.0722 * 0)%R with 0%R by lra.
    replace (0.2126 * 1 + 0.7152 * 1 + 0.0722 * 1)%R with 1%R by lra.
    rewrite Rmax_right, Rmin_left by lra. lra.
  - now apply binary64_black_white.
Qed.

Lemma contrastRatio_range_1_21_witness :
  powOne PowSeries.pow
  /\ wellFormed "#1a0d26" = true /\ wellFormed "#f4f1f4" = true
  /\ (exists x : R,
        Validator.calculateContrastRatio "#1a0d26" "#f4f1f4" = XR x
        /\ (1 <= x <= 21)%R)
  /\ wellFormed "#abc" = true /\ wellFormed "aabbcc" = true
  /\ Validator.calculateContrastRatio "#abc" "aabbcc" = XR 1.
Proof.
  split; [exact powOne_PowSeries|]. split; [reflexivity|]. split; [reflexivity|].
  destruct (contrastRatio_range_1_21 PowSeries.pow powOne_PowSeries)
    as (Hrange & Hsame & _).
  split; [apply Hrange; reflexivity|].
  split; [reflexivity|]. split; [reflexivity|].
  apply (Hsame "#abc" "aabbcc"
           {| Validator.r := int 170; Validator.g := int 187;
              Validator.b := int 204; Validator.a := int 1 |}
           {| Validator.r := int 170; Validator.g := int 187;
              Validator.b := int 204; Validator.a := int 1 |});
    reflexivity.
Defined.

(** ** The contrast of the editor background and foreground *)

Section Enclosure.
Local Open Scope R_scope.

Lemma Q2R_Qpow (q : Q) (n : nat) : Q2R (Qpow q n) = Q2R q ^ n.
Proof.
  induction n as [|n IH]; simpl.
  - unfold Q2R; simpl; lra.
  - now rewrite Q2R_mult, IH.
Qed.

Lemma pow_lt_strict (x y : R) (n : nat) : 0 <= x < y -> x ^ S n < y ^ S n.
Proof.
  intros Hxy. induction n as [|n IH].
  - simpl. lra.
  - change (x * x ^ S n < y * y ^ S n).
    assert (0 <= x ^ S n) by (apply pow_le; lra). nra.
Qed.

Lemma Rpower_2_4_fifth (x : R) : 0 < x -> Rpower x 2.4 ^ 5 = x ^ 12.
Proof.
  intros Hx. rewrite <- (Rpower_pow 5) by apply exp_pos.
  rewrite Rpower_mult. rewrite <- (Rpower_pow 12) by assumption.
  f_equal. simpl. lra.
Qed.

Lemma Rpower_2_4_enclosed (x : R) (xq lo hi : Q) :
  x = Q2R xq -> encloses xq lo hi = true ->
  Q2R lo <= Rpower x 2.4 <= Q2R hi.
Proof.
  intros -> Henc. unfold encloses in Henc.
  repeat (apply andb_prop in Henc as [Henc ?]).
  apply negb_true_iff in Henc.
  assert (Hx : 0 < Q2R xq).
  { replace 0 with (Q2R 0) by (unfold Q2R; simpl; lra). apply Qlt_Rlt.
    apply Qnot_le_lt. intros Hle. apply Qle_bool_iff in Hle. congruence. }
  assert (Hlo : 0 <= Q2R lo).
  { replace 0 with (Q2R 0) by (unfold Q2R; simpl; lra).
    now apply Qle_Rle, Qle_bool_iff. }
  assert (Hhi : 0 <= Q2R hi).
  { replace 0 with (Q2R 0) by (unfold Q2R; simpl; lra).
    now apply Qle_Rle, Qle_bool_iff. }
  assert (H5 : Q2R lo ^ 5 <= Q2R xq ^ 12).
  { rewrite <- !Q2R_Qpow. now apply Qle_Rle, Qle_bool_iff. }
  assert (H12 : Q2R xq ^ 12 <= Q2R hi ^ 5).
  { rewrite <- !Q2R_Qpow. now apply Qle_Rle, Qle_bool_iff. }
  rewrite <- Rpower_2_4_fifth in H5, H12 by assumption.
  assert (Hy : 0 < Rpower (Q2R xq) 2.4) by apply exp_pos.
  split.
  - destruct (Rle_dec (Q2R lo) (Rpower (Q2R xq) 2.4)) as [|Hn]; [assumption|].
    exfalso. apply Rnot_le_lt in Hn.
    pose proof (pow_lt_strict (Rpower (Q2R xq) 2.4) (Q2R lo) 4 ltac:(lra)). lra.
  - destruct (Rle_dec (Rpower (Q2R xq) 2.4) (Q2R hi)) as [|Hn]; [assumption|].
    exfalso. apply Rnot_le_lt in Hn.
    pose proof (pow_lt_strict (Q2R hi) (Rpower (Q2R xq) 2.4) 4 ltac:(lra)). lra.
Qed.

(** Enclosure of a linearised channel that takes the power branch. *)
Lemma linear_enclosed (v : Z) (lo hi : Q) :
  (11 <= v)%Z ->
  encloses (((inject_Z v / 255) + 0.055) / 1.055)%Q lo hi = true ->
  Q2R lo <= WCAG.linear v <= Q2R hi.
Proof.
  intros Hv Henc. unfold WCAG.linear.
  apply (IZR_le 11) in Hv.
  destruct (Rle_dec (IZR v / 255) 0.03928) as [Hle|_]; [lra|].
  apply Rpower_2_4_enclosed with (xq := (((inject_Z v / 255) + 0.055) / 1.055)%Q); [|assumption].
  rewrite Q2R_div, Q2R_plus, Q2R_div by (unfold Qeq; simpl; lia).
  unfold Q2R; simpl. lra.
Qed.
End Enclosure.

Section EditorPair.
Local Open Scope R_scope.

Lemma luminance_editor_background :
  0.00647400 <= WCAG.relativeLuminance 26 13 38 <= 0.00647401.
Proof.
  pose proof (linear_enclosed 26 0.010329823029 0.010329823030 ltac:(lia)
                ltac:(vm_compute; reflexivity)) as H26.
  pose proof (linear_enclosed 13 0.004024717018 0.004024717019 ltac:(lia)
                ltac:(vm_compute; reflexivity)) as H13.
  pose proof (linear_enclosed 38 0.019382360956 0.019382360957 ltac:(lia)
                ltac:(vm_compute; reflexivity)) as H38.
  unfold Q2R in H26, H13, H38; simpl in H26, H13, H38.
  unfold WCAG.relativeLuminance. lra.
Qed.

Lemma luminance_editor_foreground :
  0.88675344 <= WCAG.relativeLuminance 244 241 244 <= 0.88675345.
Proof.
  pose proof (linear_enclosed 244 0.904661174391 0.904661174392 ltac:(lia)
                ltac:(vm_compute; reflexivity)) as H244.
  pose proof (linear_enclosed 241 0.879622396887 0.879622396888 ltac:(lia)
                ltac:(vm_compute; reflexivity)) as H241.
  unfold Q2R in H244, H241; simpl in H244, H241.
  unfold WCAG.relativeLuminance. lra.
Qed.

(** The contrast of the editor background and foreground, to two places. *)
Lemma editor_ratio_enclosed :
  exists x : R,
    Validator.calculateContrastRatio "#1a0d26" "#f4f1f4" = XR x
    /\ 16.58 <= x <= 16.59.
Proof.
  destruct (ideal_calculateContrastRatio "#1a0d26" "#f4f1f4" eq_refl eq_refl)
    as (r1 & g1 & b1 & r2 & g2 & b2 & C1 & C2 & _ & _ & _ & _ & _ & _ & E).
  vm_compute in C1, C2. injection C1 as <- <- <-. injection C2 as <- <- <-.
  eexists. split; [exact E|].
  pose proof luminance_editor_background as Hb.
  pose proof luminance_editor_foreground as Hf.
  unfold WCAG.contrastRatio.
  rewrite Rmax_right, Rmin_left by lra.
  set (lb := WCAG.relativeLuminance 26 13 38) in *.
  set (lf := WCAG.relativeLuminance 244 241 244) in *.
  assert (Hq : (lf + 0.05) / (lb + 0.05) * (lb + 0.05) = lf + 0.05) by (field; lra).
  set (q := (lf + 0.05) / (lb + 0.05)) in *.
  split.
  - destruct (Rle_dec 16.58 q) as [|Hn]; [assumption | exfalso; nra].
  - destruct (Rle_dec q 16.59) as [|Hn]; [assumption | exfalso; nra].
Qed.
End EditorPair.

(** ** Classification against the thresholds *)

Section Thresholds.
Context {num : Type} {N : Number num}.



Lemma lookup_AA_unknown (category : string) :
  category ∉ categories ->
  Validator.AA Validator.WCAG_STANDARDS !! category = None.
Proof. intros Hc. apply not_elem_of_list_to_map_1. exact Hc. Qed.

Lemma lookup_AAA_unknown (category : string) :
  category ∉ categories ->
  Validator.AAA Validator.WCAG_STANDARDS !! category = None.
Proof. intros Hc. apply not_elem_of_list_to_map_1. exact Hc. Qed.

Lemma lookup_normalText :
  Validator.AA Validator.WCAG_STANDARDS !! "normalText" = Some (lit 4.5)
  /\ Validator.AAA Validator.WCAG_STANDARDS !! "normalText" = Some (lit 7.0).
Proof. split; vm_compute; reflexivity. Qed.

(** The list an evaluated pair is recorded in is the verdict of [classify]
    on the ratio as computed. *)
Lemma validateContrastPair_classify (p : Validator.pair) (v : Validator.validator num)
    (bgColor fgColor : string) :
  Validator.themeColors v !! Validator.bg p = Some bgColor ->
  Validator.themeColors v !! Validator.fg p = Some fgColor ->
  bgColor <> EmptyString -> fgColor <> EmptyString ->
  let ratio := Validator.calculateContrastRatio bgColor fgColor in
  let result :=
    {| Validator.background := Validator.bg p;
       Validator.foreground := Validator.fg p;
       Validator.backgroundValue := bgColor;
       Validator.foregroundValue := fgColor;
       Validator.ratio := ratio;
       Validator.resultType := Validator.type p;
       Validator.resultCritical := Validator.critical p |} in
  Validator.validateContrastPair p v =
  match Validator.classify ratio (Validator.type p) with
  | Validator.Violation =>
      Validator.pushViolation
        (Validator.contrast_ratio
           (Some (if Validator.critical p then "high" else "medium")) result) v
  | Validator.WarningAAA =>
      Validator.pushWarning (Validator.contrast_ratio_aaa "low" result) v
  | Validator.Pass =>
      Validator.pushPass (Validator.contrast_ratio None result) v
  end.
Proof.
  intros Hbg Hfg Nbg Nfg. unfold Validator.validateContrastPair, Validator.classify.
  rewrite Hbg, Hfg.
  destruct bgColor as [|c1 bgColor]; [contradiction|].
  destruct fgColor as [|c2 fgColor]; [contradiction|].
  cbn [truthy negb orb default].
  destruct (Validator.calculateContrastRatio _ _ <? _)%num; [reflexivity|].
  destruct (Validator.calculateContrastRatio _ _ <? _)%num; reflexivity.
Qed.
End Thresholds.

Section IdealClassify.
Local Open Scope R_scope.

Lemma ideal_classify (x minAA minAAA : R) (category : string) :
  Validator.AA Validator.WCAG_STANDARDS !! category = Some (XR minAA) ->
  Validator.AAA Validator.WCAG_STANDARDS !! category = Some (XR minAAA) ->
  Validator.classify (XR x) category
  = if Rlt_dec x minAA then Validator.Violation
    else if Rlt_dec x minAAA then Validator.WarningAAA
    else Validator.Pass.
Proof.
  intros HAA HAAA. unfold Validator.classify. rewrite HAA, HAAA.
  cbn [ToNumber]. rewrite !ideal_lt.
  destruct (Rlt_dec x minAA); [reflexivity|].
  destruct (Rlt_dec x minAAA); reflexivity.
Qed.

End IdealClassify.


(** C3, as stated, fails: the contrast ratio of the editor background
    #1a0d26 and foreground #f4f1f4 is not within 0.1 of 12.8. *)
Lemma editor_contrast_not_12_8 :
  ~ (exists x : R,
       Validator.calculateContrastRatio "#1a0d26" "#f4f1f4" = XR x
       /\ (12.7 <= x <= 12.9)%R
       /\ Validator.meetsAA (Validator.classify (XR x) "normalText") = true
       /\ Validator.meetsAAA (Validator.classify (XR x) "normalText") = true).
Proof.
  intros (x & Ex & Hx & _).
  destruct editor_ratio_enclosed as (y & Ey & Hy).
  rewrite Ey in Ex. injection Ex as ->. lra.
Qed.

(** C3, amended: the theme's editor background is #1a0d26 and its
    foreground #f4f1f4; their contrast ratio lies between 16.58 and 16.59,
    so within 0.1 of 16.6; it meets level AA and level AAA for normal
    text, and [validateContrastPair] records the pair as a pass. *)
Theorem editor_contrast_16_6 :
  Validator.defaultThemeColors !! "editor.background" = Some "#1a0d26"
  /\ Validator.defaultThemeColors !! "editor.foreground" = Some "#f4f1f4"
  /\ exists x : R,
       Validator.calculateContrastRatio "#1a0d26" "#f4f1f4" = XR x
       /\ (16.58 <= x <= 16.59)%R
       /\ Validator.meetsAA (Validator.classify (XR x) "normalText") = true
       /\ Validator.meetsAAA (Validator.classify (XR x) "normalText") = true
       /\ Validator.passes
            (Validator.validateContrastPair editorPair
               (Validator.newValidator Validator.defaultThemeColors))
          = [ Validator.contrast_ratio None
                {| Validator.background := "editor.background";
                   Validator.foreground := "editor.foreground";
                   Validator.backgroundValue := "#1a0d26";
                   Validator.foregroundValue := "#f4f1f4";
                   Validator.ratio := XR x;
                   Validator.resultType := "normalText";
                   Validator.resultCritical := true |} ].
Proof.
  split; [vm_compute; reflexivity|]. split; [vm_compute; reflexivity|].
  destruct editor_ratio_enclosed as (x & Ex & Hx).
  exists x. split; [exact Ex|]. split; [exact Hx|].
  destruct (lookup_normalText (N := ideal)) as [HAA HAAA].
  rewrite !ideal_lit in HAA, HAAA.
  assert (Hc : Validator.classify (XR x) "normalText" = Validator.Pass).
  { rewrite (ideal_classify x _ _ _ HAA HAAA).
    destruct (Rlt_dec x (Q2R 4.5)) as [Hlt|_];
      [unfold Q2R in Hlt; simpl in Hlt; lra|].
    destruct (Rlt_dec x (Q2R 7.0)) as [Hlt|_];
      [unfold Q2R in Hlt; simpl in Hlt; lra|]. reflexivity. }
  rewrite Hc. split; [reflexivity|]. split; [reflexivity|].
  rewrite (validateContrastPair_classify editorPair _ "#1a0d26" "#f4f1f4");
    [| vm_compute; reflexivity | vm_compute; reflexivity | discriminate | discriminate].
  cbn [Validator.type editorPair]. rewrite Ex, Hc. reflexivity.
Qed.



Lemma ideal_lt_nan (x : xreal) : (x <? num_nan)%num = false.
Proof. destruct x; reflexivity. Qed.

Lemma classify_unknown {num : Type} {N : Number num} (ratio : num) (category : string) :
  (forall x : num, (x <? num_nan)%num = false) ->
  category ∉ categories ->
  Validator.classify ratio category = Validator.Pass.
Proof.
  intros Hnan Hc. unfold Validator.classify.
  rewrite lookup_AA_unknown, lookup_AAA_unknown by assumption.
  cbn [ToNumber]. now rewrite Hnan.
Qed.

Lemma headings_unknown : "headings" ∉ categories.
Proof.
  intros Hin. unfold categories in Hin.
  repeat (apply elem_of_cons in Hin as [Hin|Hin]; [discriminate|]).
  now apply elem_of_nil in Hin.
Qed.

(** C9, as stated, fails: a pair of an unknown category is not turned
    down; with the default theme [strayPair], whose two colours are
    equal, is added to the passes. *)
Lemma unknown_category_not_rejected :
  ~ (forall (p : Validator.pair) (v : Validator.validator xreal),
       Validator.type p ∉ categories ->
       let v' := Validator.validateContrastPair p v in
       Validator.violations v' = Validator.violations v
       /\ Validator.warnings v' = Validator.warnings v
       /\ Validator.passes v' = Validator.passes v).
Proof.
  intros Hclaim.
  destruct (Hclaim strayPair (Validator.newValidator Validator.defaultThemeColors)
              headings_unknown) as (_ & _ & Hp).
  rewrite (validateContrastPair_classify strayPair _ "#1a0d26" "#1a0d26") in Hp;
    [| vm_compute; reflexivity | vm_compute; reflexivity | discriminate | discriminate].
  rewrite classify_unknown in Hp by (apply ideal_lt_nan || apply headings_unknown).
  discriminate Hp.
Qed.

(** C9, amended: for a category that is not one of the four of
    [WCAG_STANDARDS] both thresholds are undefined, so neither comparison
    holds, whatever the ratio: the verdict is a pass, in exact and in
    double-precision arithmetic, and [validateContrastPair] adds the pair
    to the passes without signalling anything. *)
Theorem unknown_category_is_a_pass (pow : float -> float -> float)
    (category : string) :
  category ∉ categories ->
  (forall ratio : xreal, Validator.classify ratio category = Validator.Pass)
  /\ (forall ratio : float,
        Validator.classify (N := binary64 pow) ratio category = Validator.Pass)
  /\ (forall (p : Validator.pair) (v : Validator.validator xreal)
        (bgColor fgColor : string),
        Validator.type p = category ->
        Validator.themeColors v !! Validator.bg p = Some bgColor ->
        Validator.themeColors v !! Validator.fg p = Some fgColor ->
        bgColor <> EmptyString -> fgColor <> EmptyString ->
        Validator.validateContrastPair p v
        = Validator.pushPass
            (Validator.contrast_ratio None
               {| Validator.background := Validator.bg p;
                  Validator.foreground := Validator.fg p;
                  Validator.backgroundValue := bgColor;
                  Validator.foregroundValue := fgColor;
                  Validator.ratio := Validator.calculateContrastRatio bgColor fgColor;
                  Validator.resultType := category;
                  Validator.resultCritical := Validator.critical p |}) v).
Proof.
  intros Hc. split; [|split].
  - intros ratio. apply classify_unknown; [apply ideal_lt_nan | assumption].
  - intros ratio. apply (classify_unknown (N := binary64 pow));
      [apply binary64_lt_nan | assumption].
  - intros p v bgColor fgColor Ht Hbg Hfg Nbg Nfg.
    rewrite (validateContrastPair_classify p v bgColor fgColor) by assumption.
    rewrite Ht, classify_unknown by (apply ideal_lt_nan || assumption).
    reflexivity.
Qed.

Lemma unknown_category_is_a_pass_witness :
  ("headings" ∉ categories)
  /\ Validator.classify (XR 1) "headings" = Validator.Pass
  /\ Validator.themeColors
       (Validator.newValidator (num := xreal) Validator.defaultThemeColors)
       !! Validator.bg strayPair = Some "#1a0d26"
  /\ Validator.themeColors
       (Validator.newValidator (num := xreal) Validator.defaultThemeColors)
       !! Validator.fg strayPair = Some "#1a0d26"
  /\ Validator.passes
       (Validator.validateContrastPair (N := ideal) strayPair
          (Validator.newValidator Validator.defaultThemeColors))
     = [ Validator.contrast_ratio None
           {| Validator.background := "editor.background";
              Validator.foreground := "activityBar.background";
              Validator.backgroundValue := "#1a0d26";
              Validator.foregroundValue := "#1a0d26";
              Validator.ratio := Validator.calculateContrastRatio "#1a0d26" "#1a0d26";
              Validator.resultType := "headings";
              Validator.resultCritical := true |} ].
Proof.
  assert (Hbg : Validator.themeColors
                  (Validator.newValidator (num := xreal) Validator.defaultThemeColors)
                  !! Validator.bg strayPair = Some "#1a0d26") by (vm_compute; reflexivity).
  assert (Hfg : Validator.themeColors
                  (Validator.newValidator (num := xreal) Validator.defaultThemeColors)
                  !! Validator.fg strayPair = Some "#1a0d26") by (vm_compute; reflexivity).
  destruct (unknown_category_is_a_pass PowSeries.pow "headings" headings_unknown)
    as (Hideal & _ & Hpair).
  split; [exact headings_unknown|]. split; [apply Hideal|].
  split; [exact Hbg|]. split; [exact Hfg|].
  rewrite (Hpair strayPair _ "#1a0d26" "#1a0d26" eq_refl Hbg Hfg);
    [reflexivity | discriminate | discriminate].
Defined.

(** ** Colour literals that are turned down *)

Section Parsing.
Context {num : Type} {N : Number num}.

Lemma hexToRgb_None (s : string) :
  Validator.hexToRgb s = None <-> lengthAccepted s = false.
Proof.
  unfold Validator.hexToRgb, lengthAccepted.
  destruct (String.length (JS.stripHash s) =? 8)%nat; [split; discriminate|].
  destruct (String.length (JS.stripHash s) =? 6)%nat; [split; discriminate|].
  destruct (String.length (JS.stripHash s) =? 3)%nat; [split; discriminate|].
  split; reflexivity.
Qed.

Lemma suite_hexToRgb_Some (s : string) (c : Suite.rgb num) :
  Suite.hexToRgb s = Some c -> wellFormed s = true.
Proof.
  unfold Suite.hexToRgb, wellFormed.
  destruct (String.length (JS.stripHash s) =? 6)%nat eqn:E6; [|discriminate].
  simpl. rewrite orb_true_r. simpl.
  destruct (forallb JS.isHexDigit _); [reflexivity | discriminate].
Qed.
End Parsing.

(** C4: the validator's [hexToRgb] checks the length only.  The literal
    #12345g, whose last character is no hex digit, is not turned down but
    read as the colour (18, 52, 5), and zzzzzz as a colour whose channels
    are NaN.  A string is turned down when its length,
    after the optional [#], is not 3, 6 or 8 (so not-a-color and the
    empty string are), and the [hexToRgb] of the test suite turns down
    every string that is not well formed. *)
Theorem hexToRgb_checks_length_only (num : Type) (N : Number num) :
  wellFormed "#12345g" = false
  /\ Validator.hexToRgb "#12345g"
     = Some {| Validator.r := int 18; Validator.g := int 52;
               Validator.b := int 5; Validator.a := int 1 |}
  /\ wellFormed "zzzzzz" = false
  /\ Validator.hexToRgb "zzzzzz"
     = Some {| Validator.r := num_nan; Validator.g := num_nan;
               Validator.b := num_nan; Validator.a := int 1 |}
  /\ (forall s : string,
        lengthAccepted s = false -> Validator.hexToRgb s = None)
  /\ Validator.hexToRgb "not-a-color" = None
  /\ Validator.hexToRgb "" = None
  /\ (forall s : string, wellFormed s = false -> Suite.hexToRgb s = None).
Proof.
  split; [reflexivity|]. split; [reflexivity|]. split; [reflexivity|].
  split; [reflexivity|]. split; [intros s; apply hexToRgb_None|].
  split; [reflexivity|]. split; [reflexivity|].
  intros s Hs. destruct (Suite.hexToRgb s) as [c|] eqn:E; [|reflexivity].
  apply suite_hexToRgb_Some in E. congruence.
Qed.

Lemma hexToRgb_checks_length_only_witness :
  lengthAccepted "not-a-color" = false
  /\ Validator.hexToRgb (N := ideal) "not-a-color" = None
  /\ wellFormed "zzzzzz" = false
  /\ Suite.hexToRgb (N := ideal) "zzzzzz" = None.
Proof.
  destruct (hexToRgb_checks_length_only xreal ideal)
    as (_ & _ & _ & _ & Hlength & _ & _ & Hsuite).
  split; [reflexivity|]. split; [exact (Hlength "not-a-color" eq_refl)|].
  split; [reflexivity|]. exact (Hsuite "zzzzzz" eq_refl).
Defined.

(** What follows from the unchecked digits: a colour with NaN channels has
    a NaN contrast against any colour, and a NaN ratio is below no
    threshold, so it is recorded as a pass. *)
Lemma unchecked_digits_pass :
  Validator.calculateContrastRatio "zzzzzz" "#ffffff" = XNaN
  /\ forall category : string, Validator.classify XNaN category = Validator.Pass.
Proof.
  split.
  - unfold Validator.calculateContrastRatio.
    change (Validator.hexToRgb "zzzzzz")
      with (Some {| Validator.r := XNaN; Validator.g := XNaN;
                    Validator.b := XNaN; Validator.a := XR 1 |}).
    assert (Hlum : forall alpha : xreal,
               Validator.getRelativeLuminance
                 {| Validator.r := XNaN; Validator.g := XNaN;
                    Validator.b := XNaN; Validator.a := alpha |} = XNaN).
    { intros alpha. unfold Validator.getRelativeLuminance, Validator.linearize.
      rewrite !ideal_lit. reflexivity. }
    change (Validator.hexToRgb "#ffffff")
      with (Some {| Validator.r := XR 255; Validator.g := XR 255;
                    Validator.b := XR 255; Validator.a := XR 1 |}).
    cbv beta iota zeta. rewrite Hlum. reflexivity.
  - intros category. unfold Validator.classify.
    destruct (ToNumber _), (ToNumber _); reflexivity.
Qed.

(** C10: when either string is one that [hexToRgb] turns down, the
    contrast ratio is the Number 0, in the validator ([calculateContrastRatio])
    and in the test suite ([getContrastRatio]) alike and whatever the
    arithmetic; 0 is below 1, so outside the range of a contrast ratio,
    in exact arithmetic and in double precision. *)
Theorem malformed_input_gives_zero :
  (forall (num : Type) (N : Number num) (color1 color2 : string),
      Validator.hexToRgb color1 = None \/ Validator.hexToRgb color2 = None ->
      Validator.calculateContrastRatio color1 color2 = int 0)
  /\ (forall (num : Type) (N : Number num) (color1 color2 : string),
      Suite.hexToRgb color1 = None \/ Suite.hexToRgb color2 = None ->
      Suite.getContrastRatio color1 color2 = int 0)
  /\ (int 0 : xreal) = XR 0
  /\ ((int 0 : xreal) <? int 1)%num = true
  /\ (forall pow : float -> float -> float,
        int (N := binary64 pow) 0 = 0%float
        /\ num_lt (Number := binary64 pow) 0%float 1%float = true).
Proof.
  split; [|split; [|split; [|split]]].
  - intros num N color1 color2 [H1|H2]; unfold Validator.calculateContrastRatio.
    + now rewrite H1.
    + rewrite H2. now destruct (Validator.hexToRgb color1).
  - intros num N color1 color2 [H1|H2]; unfold Suite.getContrastRatio.
    + now rewrite H1.
    + rewrite H2. now destruct (Suite.hexToRgb color1).
  - reflexivity.
  - simpl. destruct (Rlt_dec 0 1) as [_|Hn]; [reflexivity | exfalso; lra].
  - intros pow. split; vm_compute; reflexivity.
Qed.

Lemma malformed_input_gives_zero_witness :
  (Validator.hexToRgb (N := ideal) "not-a-color" = None
   \/ Validator.hexToRgb (N := ideal) "#ffffff" = None)
  /\ Validator.calculateContrastRatio "not-a-color" "#ffffff" = XR 0
  /\ (Suite.hexToRgb (N := ideal) "#ffffff" = None
      \/ Suite.hexToRgb (N := ideal) "#fff" = None)
  /\ Suite.getContrastRatio "#ffffff" "#fff" = XR 0.
Proof.
  assert (H : Validator.hexToRgb (N := ideal) "not-a-color" = None
              \/ Validator.hexToRgb (N := ideal) "#ffffff" = None)
    by (left; reflexivity).
  assert (H' : Suite.hexToRgb (N := ideal) "#ffffff" = None
               \/ Suite.hexToRgb (N := ideal) "#fff" = None)
    by (right; reflexivity).
  destruct malformed_input_gives_zero as (Hall & Hsuite & _).
  split; [exact H|].
  split; [exact (Hall xreal ideal "not-a-color" "#ffffff" H)|].
  split; [exact H'|].
  exact (Hsuite xreal ideal "#ffffff" "#fff" H').
Defined.

(** C7: a string of three hex digits, with or without the leading [#],
    parses to the same colour as the string in which each digit is written
    twice, whatever the arithmetic: each channel is 17 times its digit. *)
Theorem short_hex_expansion (num : Type) (N : Number num) (c1 c2 c3 : ascii) :
  JS.isHexDigit c1 = true -> JS.isHexDigit c2 = true -> JS.isHexDigit c3 = true ->
  let short := String c1 (String c2 (String c3 EmptyString)) in
  let long :=
    String c1 (String c1 (String c2 (String c2 (String c3 (String c3 EmptyString))))) in
  let colour :=
    {| Validator.r := int (17 * digit c1); Validator.g := int (17 * digit c2);
       Validator.b := int (17 * digit c3); Validator.a := int 1 |} in
  Validator.hexToRgb (String "#" short) = Validator.hexToRgb (String "#" long)
  /\ Validator.hexToRgb short = Validator.hexToRgb long
  /\ Validator.hexToRgb (String "#" short) = Some colour
  /\ Validator.hexToRgb short = Some colour.
Proof.
  intros H1 H2 H3 short long colour.
  assert (Es : Validator.hexToRgb (String "#" short) = Some colour).
  { unfold Validator.hexToRgb, short, colour, JS.twice, int; simpl.
    rewrite !parseInt_two_digits by assumption.
    repeat f_equal; lia. }
  assert (El : Validator.hexToRgb (String "#" long) = Some colour).
  { unfold Validator.hexToRgb, long, colour, JS.substr, int; simpl.
    rewrite !parseInt_two_digits by assumption.
    repeat f_equal; lia. }
  assert (Hs : JS.stripHash short = short) by now apply isHexDigit_not_hash.
  assert (Hl : JS.stripHash long = long) by now apply isHexDigit_not_hash.
  assert (Es' : Validator.hexToRgb short = Validator.hexToRgb (String "#" short)).
  { unfold Validator.hexToRgb. now rewrite Hs. }
  assert (El' : Validator.hexToRgb long = Validator.hexToRgb (String "#" long)).
  { unfold Validator.hexToRgb. now rewrite Hl. }
  repeat split; congruence.
Qed.

Lemma short_hex_expansion_witness :
  Validator.hexToRgb (N := ideal) "#abc" = Validator.hexToRgb (N := ideal) "#aabbcc".
Proof.
  exact (proj1 (short_hex_expansion xreal ideal "a" "b" "c" eq_refl eq_refl eq_refl)).
Defined.

(** ** Symmetry of the contrast ratio *)

Section Symmetry.
Context {num : Type} {N : Number num}.
Hypothesis max_comm : forall x y : num, Math_max x y = Math_max y x.
Hypothesis min_comm : forall x y : num, Math_min x y = Math_min y x.

Lemma calculateContrastRatio_comm (color1 color2 : string) :
  Validator.calculateContrastRatio color1 color2
  = Validator.calculateContrastRatio color2 color1.
Proof.
  unfold Validator.calculateContrastRatio.
  destruct (Validator.hexToRgb color1), (Validator.hexToRgb color2); try reflexivity.
  cbv zeta. now rewrite max_comm, min_comm.
Qed.

Lemma getContrastRatio_comm (color1 color2 : string) :
  Suite.getContrastRatio color1 color2 = Suite.getContrastRatio color2 color1.
Proof.
  unfold Suite.getContrastRatio.
  destruct (Suite.hexToRgb color1), (Suite.hexToRgb color2); try reflexivity.
  cbv zeta. now rewrite max_comm, min_comm.
Qed.
End Symmetry.

Lemma ideal_max_comm (x y : xreal) : Math_max x y = Math_max y x.
Proof. destruct x, y; simpl; try reflexivity. now rewrite Rmax_comm. Qed.

Lemma ideal_min_comm (x y : xreal) : Math_min x y = Math_min y x.
Proof. destruct x, y; simpl; try reflexivity. now rewrite Rmin_comm. Qed.

(** C6: the contrast ratio does not depend on the order of its two
    arguments, for all strings (well-formed or not), in the validator
    ([calculateContrastRatio]) and in the test suite ([getContrastRatio]),
    in exact arithmetic and in double precision whatever [Math.pow] is. *)
Theorem contrastRatio_symmetric (pow : float -> float -> float) (a b : string) :
  Validator.calculateContrastRatio (N := ideal) a b
  = Validator.calculateContrastRatio (N := ideal) b a
  /\ Validator.calculateContrastRatio (N := binary64 pow) a b
     = Validator.calculateContrastRatio (N := binary64 pow) b a
  /\ Suite.getContrastRatio (N := ideal) a b = Suite.getContrastRatio (N := ideal) b a
  /\ Suite.getContrastRatio (N := binary64 pow) a b
     = Suite.getContrastRatio (N := binary64 pow) b a.
Proof.
  split; [|split; [|split]].
  - apply calculateContrastRatio_comm; [apply ideal_max_comm | apply ideal_min_comm].
  - apply (calculateContrastRatio_comm (N := binary64 pow));
      [apply binary64_max_comm | apply binary64_min_comm].
  - apply getContrastRatio_comm; [apply ideal_max_comm | apply ideal_min_comm].
  - apply (getContrastRatio_comm (N := binary64 pow));
      [apply binary64_max_comm | apply binary64_min_comm].
Qed.

(** ** The colour-blindness separation *)

Section Bytes.


End Bytes.

Section IdealDistance.
Local Open Scope R_scope.



End IdealDistance.

Section IdealSimulation.
Local Open Scope R_scope.



End IdealSimulation.




